(** * Schema Markup Generator: the schema builder of [schema_generator.py]

    The development embeds the class [SchemaGenerator] and the dispatch
    of the request handler [generate_schema], first at the level of
    values (an input record is a finite map from strings to strings, a
    document is a tree of ordered mappings) and then at the level of an
    object store, where the same methods allocate their dictionaries. *)

From stdpp Require Import base option list strings gmap.

Local Open Scope string_scope.
Local Open Scope list_scope.
Set Warnings "-register-all".

(** ** Data model *)

(** The JSON object posted under ["data"]: a flat mapping from field
    names to string values. *)
Abbreviation record := (gmap string string).

(** A schema document: a string leaf or a dictionary whose entries are
    kept in the order of the dict display that builds them. *)
Inductive doc : Type :=
  | DStr (s : string)
  | DMap (fields : list (string * doc)).

(** What a run can raise: the attribute lookup [self.name] on an object
    whose class has no such attribute, and the answer of line 205,
    [{'error': 'Invalid schema type'}] with status 400. *)
Inductive error : Type :=
  | AttributeError (name : string)
  | InvalidSchemaType.

(** The specification calls the second one [UnknownTypeKind]. *)
Abbreviation UnknownTypeKind := InvalidSchemaType (only parsing).

Inductive result (A : Type) : Type :=
  | Ok (a : A)
  | Err (e : error).
Arguments Ok {A} a.
Arguments Err {A} e.

(** Sequencing stops at the first error, as an uncaught exception does. *)
Global Instance result_ret : MRet result := λ A a, Ok a.
Global Instance result_bind : MBind result := λ A B k r,
  match r with
  | Ok a => k a
  | Err e => Err e
  end.

Global Instance error_eq_dec : EqDecision error.
Proof. solve_decision. Defined.

(** ** Dictionary access *)

(** [data.get(key, default)] on the input record. *)
Definition get (data : record) (key default : string) : string :=
  match data !! key with
  | Some v => v
  | None => default
  end.

(** First entry stored under [key] in an ordered dictionary. *)
Fixpoint assoc {A} (key : string) (kvs : list (string * A)) : option A :=
  match kvs with
  | [] => None
  | (k, v) :: rest => if String.eqb k key then Some v else assoc key rest
  end.

Definition keys {A} (kvs : list (string * A)) : list string := map fst kvs.

(** [d[key]] on a document; a string has no entries. *)
Definition field (key : string) (d : doc) : option doc :=
  match d with
  | DStr _ => None
  | DMap fields => assoc key fields
  end.

(** [d[k1][k2]...] along a path of keys. *)
Fixpoint at_path (path : list string) (d : doc) : option doc :=
  match path with
  | [] => Some d
  | k :: rest =>
      match field k d with
      | Some d' => at_path rest d'
      | None => None
      end
  end.

(** ** The shape methods of [SchemaGenerator] (lines 23-81) *)

Definition generate_organization (data : record) : doc :=
  DMap [
    ("@context", DStr "https://schema.org");
    ("@type", DStr "Organization");
    ("name", DStr (get data "name" ""));
    ("url", DStr (get data "url" ""));
    ("logo", DStr (get data "logo" ""));
    ("description", DStr (get data "description" ""));
    ("address", DMap [
      ("@type", DStr "PostalAddress");
      ("streetAddress", DStr (get data "street" ""));
      ("addressLocality", DStr (get data "city" ""));
      ("addressRegion", DStr (get data "state" ""));
      ("postalCode", DStr (get data "zip" ""));
      ("addressCountry", DStr (get data "country" ""))
    ]);
    ("contactPoint", DMap [
      ("@type", DStr "ContactPoint");
      ("telephone", DStr (get data "phone" ""));
      ("contactType", DStr "customer service")
    ])
  ].

Definition generate_product (data : record) : doc :=
  DMap [
    ("@context", DStr "https://schema.org");
    ("@type", DStr "Product");
    ("name", DStr (get data "name" ""));
    ("description", DStr (get data "description" ""));
    ("image", DStr (get data "image" ""));
    ("brand", DMap [
      ("@type", DStr "Brand");
      ("name", DStr (get data "brand" ""))
    ]);
    ("offers", DMap [
      ("@type", DStr "Offer");
      ("price", DStr (get data "price" ""));
      ("priceCurrency", DStr (get data "currency" "USD"));
      ("availability", DStr "https://schema.org/InStock")
    ])
  ].

Definition generate_article (data : record) : doc :=
  DMap [
    ("@context", DStr "https://schema.org");
    ("@type", DStr "Article");
    ("headline", DStr (get data "title" ""));
    ("description", DStr (get data "description" ""));
    ("author", DMap [
      ("@type", DStr "Person");
      ("name", DStr (get data "author" ""))
    ]);
    ("datePublished", DStr (get data "date" ""));
    ("image", DStr (get data "image" ""));
    ("publisher", DMap [
      ("@type", DStr "Organization");
      ("name", DStr (get data "publisher" ""))
    ])
  ].

(** ** The class, its constructor and the module-level instance *)

(** A bound method taking the record and returning the document. *)
Abbreviation method := (record → doc).

(** The body of [class SchemaGenerator]: besides [__init__] it defines
    exactly three methods. *)
Definition SchemaGenerator_class : list (string * method) :=
  [ ("generate_organization", generate_organization);
    ("generate_product", generate_product);
    ("generate_article", generate_article) ].

(** [self.name] for an instance of a class whose methods are [cls]: the
    instance has no attribute of its own before [__init__] stores
    [schema_types], so the lookup is answered by the class or raises.
    The constructor never calls what it looks up, so both are stated for
    any representation [A] of a method. *)
Definition getattr {A} (cls : list (string * A)) (name : string) : result A :=
  match assoc name cls with
  | Some m => Ok m
  | None => Err (AttributeError name)
  end.

(** [__init__] (lines 13-21): the dict display evaluates its six values
    from top to bottom and stores the table only when all of them have
    been found. The result is the value of [self.schema_types]. *)
Definition SchemaGenerator_init {A} (cls : list (string * A))
  : result (list (string * A)) :=
  organization ← getattr cls "generate_organization";
  person ← getattr cls "generate_person";
  product ← getattr cls "generate_product";
  article ← getattr cls "generate_article";
  local_business ← getattr cls "generate_local_business";
  event ← getattr cls "generate_event";
  Ok [ ("Organization", organization);
       ("Person", person);
       ("Product", product);
       ("Article", article);
       ("LocalBusiness", local_business);
       ("Event", event) ].

(** Line 83: [generator = SchemaGenerator()], run when the module is
    loaded; [generator.schema_types] when the constructor returns. *)
Definition generator : result (list (string * method)) :=
  SchemaGenerator_init SchemaGenerator_class.

(** Lines 201-205 of [generate_schema] for a constructed table: the
    membership test, the call of the selected method, and the error
    answer otherwise. *)
Definition dispatch (schema_types : list (string * method))
    (schema_type : string) (form_data : record) : result doc :=
  match assoc schema_type schema_types with
  | Some m => Ok (m form_data)
  | None => Err InvalidSchemaType
  end.

(** The operation the specification calls [build], for a generator of
    class [cls]: the instance is constructed, then the request is
    dispatched on its table. *)
Definition build_in (cls : list (string * method)) (schema_type : string)
    (form_data : record) : result doc :=
  schema_types ← SchemaGenerator_init cls;
  dispatch schema_types schema_type form_data.

(** [build] on the program as written: the handler reads the module's
    [generator]. *)
Definition build (schema_type : string) (form_data : record) : result doc :=
  schema_types ← generator;
  dispatch schema_types schema_type form_data.

(** The six keys of the dict display of [__init__]. *)
Definition schema_type_names : list string :=
  [ "Organization"; "Person"; "Product"; "Article"; "LocalBusiness"; "Event" ].

(** ** The dict displays as data *)

(** The three methods are dict displays whose leaves are string literals
    and calls of [data.get]. Reading a display as a tree keeps, for each
    leaf, the input key it is read from. *)
Inductive shape : Type :=
  | Literal (s : string)
  | Get (key default : string)
  | Dict (entries : list (string * shape)).

Fixpoint fill (data : record) (t : shape) : doc :=
  match t with
  | Literal s => DStr s
  | Get key default => DStr (get data key default)
  | Dict entries =>
      DMap ((fix fill_entries (es : list (string * shape)) :=
               match es with
               | [] => []
               | (k, t') :: rest => (k, fill data t') :: fill_entries rest
               end) entries)
  end.

(** The leaves read from the input: path in the document, input key and
    the default of the call. *)
Fixpoint sourced_leaves (t : shape) : list (list string * string * string) :=
  match t with
  | Literal _ => []
  | Get key default => [([], key, default)]
  | Dict entries =>
      (fix leaves_entries (es : list (string * shape)) :=
         match es with
         | [] => []
         | (k, t') :: rest =>
             (map (λ '(path, key, default), (k :: path, key, default))
                  (sourced_leaves t')
              ++ leaves_entries rest)%list
         end) entries
  end.

Definition organization_shape : shape :=
  Dict [
    ("@context", Literal "https://schema.org");
    ("@type", Literal "Organization");
    ("name", Get "name" "");
    ("url", Get "url" "");
    ("logo", Get "logo" "");
    ("description", Get "description" "");
    ("address", Dict [
      ("@type", Literal "PostalAddress");
      ("streetAddress", Get "street" "");
      ("addressLocality", Get "city" "");
      ("addressRegion", Get "state" "");
      ("postalCode", Get "zip" "");
      ("addressCountry", Get "country" "")
    ]);
    ("contactPoint", Dict [
      ("@type", Literal "ContactPoint");
      ("telephone", Get "phone" "");
      ("contactType", Literal "customer service")
    ])
  ].

Definition product_shape : shape :=
  Dict [
    ("@context", Literal "https://schema.org");
    ("@type", Literal "Product");
    ("name", Get "name" "");
    ("description", Get "description" "");
    ("image", Get "image" "");
    ("brand", Dict [
      ("@type", Literal "Brand");
      ("name", Get "brand" "")
    ]);
    ("offers", Dict [
      ("@type", Literal "Offer");
      ("price", Get "price" "");
      ("priceCurrency", Get "currency" "USD");
      ("availability", Literal "https://schema.org/InStock")
    ])
  ].

Definition article_shape : shape :=
  Dict [
    ("@context", Literal "https://schema.org");
    ("@type", Literal "Article");
    ("headline", Get "title" "");
    ("description", Get "description" "");
    ("author", Dict [
      ("@type", Literal "Person");
      ("name", Get "author" "")
    ]);
    ("datePublished", Get "date" "");
    ("image", Get "image" "");
    ("publisher", Dict [
      ("@type", Literal "Organization");
      ("name", Get "publisher" "")
    ])
  ].

(** The methods with their displays, under the tag [__init__] files each
    method under. *)
Definition SchemaGenerator_shapes : list (string * (method * shape)) :=
  [ ("Organization", (generate_organization, organization_shape));
    ("Product", (generate_product, product_shape));
    ("Article", (generate_article, article_shape)) ].

(** ** The same methods on an object store *)

(** Python dictionaries are mutable objects reached through references.
    The store lists every dictionary allocated so far; an address is an
    index into it. *)
Abbreviation loc := nat.

Inductive value : Type :=
  | VStr (s : string)
  | VRef (l : loc).

Abbreviation pydict := (list (string * value)).
Abbreviation store := (list pydict).

(** A computation may read and change the store and may raise. *)
Definition M (A : Type) : Type := store → result A * store.

Global Instance M_ret : MRet M := λ A a h, (Ok a, h).
Global Instance M_bind : MBind M := λ A B k m h,
  match m h with
  | (Ok a, h') => k a h'
  | (Err e, h') => (Err e, h')
  end.

Definition raise {A} (e : error) : M A := λ h, (Err e, h).

(** [data.get(key, default)] through a reference. An address that holds
    no dictionary stands for an object without a [get] method. *)
Definition dict_get (data : loc) (key default : string) : M value := λ h,
  match h !! data with
  | Some d =>
      (Ok (match assoc key d with Some v => v | None => VStr default end), h)
  | None => (Err (AttributeError "get"), h)
  end.

(** A dict display, once its values are evaluated, allocates a new
    dictionary. *)
Definition new_dict (entries : pydict) : M loc := λ h,
  (Ok (length h), h ++ [entries]).

Definition generate_organization_st (data : loc) : M loc :=
  name ← dict_get data "name" "";
  url ← dict_get data "url" "";
  logo ← dict_get data "logo" "";
  description ← dict_get data "description" "";
  address ← (street ← dict_get data "street" "";
             city ← dict_get data "city" "";
             state ← dict_get data "state" "";
             zip ← dict_get data "zip" "";
             country ← dict_get data "country" "";
             new_dict [ ("@type", VStr "PostalAddress");
                        ("streetAddress", street);
                        ("addressLocality", city);
                        ("addressRegion", state);
                        ("postalCode", zip);
                        ("addressCountry", country) ]);
  contactPoint ← (phone ← dict_get data "phone" "";
                  new_dict [ ("@type", VStr "ContactPoint");
                             ("telephone", phone);
                             ("contactType", VStr "customer service") ]);
  new_dict [ ("@context", VStr "https://schema.org");
             ("@type", VStr "Organization");
             ("name", name);
             ("url", url);
             ("logo", logo);
             ("description", description);
             ("address", VRef address);
             ("contactPoint", VRef contactPoint) ].

Definition generate_product_st (data : loc) : M loc :=
  name ← dict_get data "name" "";
  description ← dict_get data "description" "";
  image ← dict_get data "image" "";
  brand ← (brand_name ← dict_get data "brand" "";
           new_dict [ ("@type", VStr "Brand");
                      ("name", brand_name) ]);
  offers ← (price ← dict_get data "price" "";
            currency ← dict_get data "currency" "USD";
            new_dict [ ("@type", VStr "Offer");
                       ("price", price);
                       ("priceCurrency", currency);
                       ("availability", VStr "https://schema.org/InStock") ]);
  new_dict [ ("@context", VStr "https://schema.org");
             ("@type", VStr "Product");
             ("name", name);
             ("description", description);
             ("image", image);
             ("brand", VRef brand);
             ("offers", VRef offers) ].

Definition generate_article_st (data : loc) : M loc :=
  title ← dict_get data "title" "";
  description ← dict_get data "description" "";
  author ← (author_name ← dict_get data "author" "";
            new_dict [ ("@type", VStr "Person");
                       ("name", author_name) ]);
  date ← dict_get data "date" "";
  image ← dict_get data "image" "";
  publisher ← (publisher_name ← dict_get data "publisher" "";
               new_dict [ ("@type", VStr "Organization");
                          ("name", publisher_name) ]);
  new_dict [ ("@context", VStr "https://schema.org");
             ("@type", VStr "Article");
             ("headline", title);
             ("description", description);
             ("author", VRef author);
             ("datePublished", date);
             ("image", image);
             ("publisher", VRef publisher) ].

Abbreviation method_st := (loc → M loc).

Definition SchemaGenerator_class_st : list (string * method_st) :=
  [ ("generate_organization", generate_organization_st);
    ("generate_product", generate_product_st);
    ("generate_article", generate_article_st) ].

Definition dispatch_st (schema_types : list (string * method_st))
    (schema_type : string) (form_data : loc) : M loc :=
  match assoc schema_type schema_types with
  | Some m => m form_data
  | None => raise InvalidSchemaType
  end.

Definition build_in_st (cls : list (string * method_st))
    (schema_type : string) (form_data : loc) : M loc :=
  match SchemaGenerator_init cls with
  | Ok schema_types => dispatch_st schema_types schema_type form_data
  | Err e => raise e
  end.

Definition build_st (schema_type : string) (form_data : loc) : M loc :=
  build_in_st SchemaGenerator_class_st schema_type form_data.

(** *** Reading the store *)

(** The document a value stands for: dictionaries are followed through
    their references, at most [fuel] levels deep. *)
Fixpoint read_doc (fuel : nat) (h : store) (v : value) : option doc :=
  match v with
  | VStr s => Some (DStr s)
  | VRef l =>
      match fuel with
      | 0 => None
      | S fuel' =>
          d ← h !! l;
          fields ← mapM (λ '(k, v'), pair k <$> read_doc fuel' h v') d;
          Some (DMap fields)
      end
  end.

(** The dictionary at [l] is the input record [r]. *)
Definition holds_record (h : store) (l : loc) (r : record) : Prop :=
  ∃ d : pydict, h !! l = Some d ∧ ∀ k, assoc k d = VStr <$> r !! k.

(** One dictionary that is the record [r]. *)
Definition record_dict (r : record) : pydict :=
  (λ '(k, v), (k, VStr v)) <$> map_to_list r.

(** What a caller observes of a run: the error, or the document at the
    returned address. *)
Definition outcome (run : result loc * store) : result (option doc) :=
  match run with
  | (Ok root, h') => Ok (read_doc 2 h' (VRef root))
  | (Err e, _) => Err e
  end.

(** *** Vocabulary of the store properties *)

(** A store method refines a value method when, run on any store that
    holds the record, it returns the address of the value method's
    document. *)
Definition refines (m_st : method_st) (m : method) : Prop :=
  ∀ h l (r : record), holds_record h l r →
    outcome (m_st l h) = Ok (Some (m r)).

(** Two tables with the same names in the same order and related
    entries. *)
Definition related {A B} (R : A → B → Prop)
    (l1 : list (string * A)) (l2 : list (string * B)) : Prop :=
  Forall2 (λ a b, a.1 = b.1 ∧ R a.2 b.2) l1 l2.

(** The caller's view of a value-level result. *)
Definition document_of (res : result doc) : result (option doc) :=
  match res with
  | Ok d => Ok (Some d)
  | Err e => Err e
  end.

(** Every dictionary of [h] is in [h'] at the same address with the
    same entries. *)
Definition preserves (h h' : store) : Prop :=
  ∀ l d, h !! l = Some d → h' !! l = Some d.

(** The dictionary at [root] and every dictionary referred to by a
    dictionary allocated since [h] have themselves been allocated since
    [h]. *)
Definition fresh_document (h h' : store) (root : loc) : Prop :=
  h !! root = None
  ∧ is_Some (h' !! root)
  ∧ ∀ l d key l', h !! l = None → h' !! l = Some d →
      assoc key d = Some (VRef l') → h !! l' = None ∧ is_Some (h' !! l').

(** A method has no side effect when, run on a store that holds the
    record, it leaves every dictionary of that store as it was, the
    record among them, and returns a document made of new dictionaries
    only. *)
Definition no_side_effects (m : method_st) : Prop :=
  ∀ h data (r : record), holds_record h data r →
    preserves h (m data h).2
    ∧ holds_record (m data h).2 data r
    ∧ ∀ root, (m data h).1 = Ok root → fresh_document h (m data h).2 root.

(** The references of a dictionary stay between two addresses. *)
Definition refs_within (lo hi : loc) (d : pydict) : Prop :=
  ∀ key l', assoc key d = Some (VRef l') → lo ≤ l' < hi.

(** What each method allocates in a store of [base] objects for the
    record [r], in order of allocation: the nested dictionaries, then
    the root. *)
Definition organization_objects (r : record) (base : loc) : list pydict :=
  [ [ ("@type", VStr "PostalAddress");
      ("streetAddress", VStr (get r "street" ""));
      ("addressLocality", VStr (get r "city" ""));
      ("addressRegion", VStr (get r "state" ""));
      ("postalCode", VStr (get r "zip" ""));
      ("addressCountry", VStr (get r "country" "")) ];
    [ ("@type", VStr "ContactPoint");
      ("telephone", VStr (get r "phone" ""));
      ("contactType", VStr "customer service") ];
    [ ("@context", VStr "https://schema.org");
      ("@type", VStr "Organization");
      ("name", VStr (get r "name" ""));
      ("url", VStr (get r "url" ""));
      ("logo", VStr (get r "logo" ""));
      ("description", VStr (get r "description" ""));
      ("address", VRef base);
      ("contactPoint", VRef (base + 1)) ] ].

Definition product_objects (r : record) (base : loc) : list pydict :=
  [ [ ("@type", VStr "Brand");
      ("name", VStr (get r "brand" "")) ];
    [ ("@type", VStr "Offer");
      ("price", VStr (get r "price" ""));
      ("priceCurrency", VStr (get r "currency" "USD"));
      ("availability", VStr "https://schema.org/InStock") ];
    [ ("@context", VStr "https://schema.org");
      ("@type", VStr "Product");
      ("name", VStr (get r "name" ""));
      ("description", VStr (get r "description" ""));
      ("image", VStr (get r "image" ""));
      ("brand", VRef base);
      ("offers", VRef (base + 1)) ] ].

Definition article_objects (r : record) (base : loc) : list pydict :=
  [ [ ("@type", VStr "Person");
      ("name", VStr (get r "author" "")) ];
    [ ("@type", VStr "Organization");
      ("name", VStr (get r "publisher" "")) ];
    [ ("@context", VStr "https://schema.org");
      ("@type", VStr "Article");
      ("headline", VStr (get r "title" ""));
      ("description", VStr (get r "description" ""));
      ("author", VRef base);
      ("datePublished", VStr (get r "date" ""));
      ("image", VStr (get r "image" ""));
      ("publisher", VRef (base + 1)) ] ].

(** The record of the end-to-end example. *)
Definition acme : record :=
  <["name" := "Acme"]> (<["city" := "Springfield"]> ∅).

(** The record of the remapping example. *)
Definition dated : record :=
  <["title" := "T"]> (<["date" := "2024-01-15"]> ∅).

(** ** The request handler and the page that calls it *)

(** The JSON object posted to [/api/generate], as the handler reads it:
    [data.get('type')] is [None] when the key is missing, and
    [data.get('data', {})] falls back on the empty record. *)
Record request : Type := {
  req_type : option string;
  req_data : option record
}.




(** The script of the page (lines 132-182). [updateForm] writes one of
    three forms, or nothing for another type; an input is its [id] and
    its initial [value]. *)
Definition form_fields (type : string) : list (string * string) :=
  if String.eqb type "Organization" then
    [ ("name", "Example Company");
      ("url", "https://example.com");
      ("description", "A leading company in technology solutions");
      ("phone", "+1-555-123-4567") ]
  else if String.eqb type "Product" then
    [ ("name", "Amazing Product");
      ("description", "High-quality product with excellent features");
      ("brand", "Example Brand");
      ("price", "99.99") ]
  else if String.eqb type "Article" then
    [ ("title", "How to Improve SEO");
      ("description", "Complete guide to search engine optimization");
      ("author", "John Doe");
      ("date", "2024-01-15") ]
  else [].

(** The options of the [schemaType] select (lines 113-115). *)
Definition form_options : list string :=
  [ "Organization"; "Product"; "Article" ].

(** The loop of [generateSchema] (lines 166-168):
    [formData[input.id] = input.value] over the inputs in page order. *)
Definition collect_form_data (inputs : list (string * string)) : record :=
  fold_left (λ (formData : record) '(id, value), <[id := value]> formData)
            inputs ∅.

(** The inputs of the form of [type] once the user has edited them:
    the ids are those of the form, [entered id] is the current value. *)
Definition form_inputs (type : string) (entered : string → string)
  : list (string * string) :=
  map (λ '(id, _), (id, entered id)) (form_fields type).

(** The body [generateSchema] posts (line 174). *)
Definition page_request (type : string) (entered : string → string)
  : request :=
  {| req_type := Some type;
     req_data := Some (collect_form_data (form_inputs type entered)) |}.

(** ** Vocabulary of the further properties *)

(** The input keys a display reads. *)
Definition source_keys (t : shape) : list string :=
  map (λ '(_, key, _), key) (sourced_leaves t).

(** The default a shape method falls back on for a key. *)
Definition default_of (tag key : string) : string :=
  if String.eqb tag "Product" && String.eqb key "currency" then "USD" else "".

(** A document with its strings erased: the nesting and the keys. *)
Fixpoint skeleton (d : doc) : doc :=
  match d with
  | DStr _ => DStr ""
  | DMap fields =>
      DMap ((fix skeleton_fields (fs : list (string * doc)) :=
               match fs with
               | [] => []
               | (k, d') :: rest => (k, skeleton d') :: skeleton_fields rest
               end) fields)
  end.

(** No dictionary of the document has two entries under one key. *)
Fixpoint distinct_keys (d : doc) : bool :=
  match d with
  | DStr _ => true
  | DMap fields =>
      bool_decide (NoDup (keys fields))
      && (fix distinct_fields (fs : list (string * doc)) :=
            match fs with
            | [] => true
            | (_, d') :: rest => distinct_keys d' && distinct_fields rest
            end) fields
  end.

(** [v[k1][k2]...] in the store. *)
Fixpoint at_path_st (h : store) (path : list string) (v : value)
  : option value :=
  match path with
  | [] => Some v
  | k :: rest =>
      match v with
      | VStr _ => None
      | VRef l =>
          match h !! l with
          | Some d =>
              match assoc k d with
              | Some v' => at_path_st h rest v'
              | None => None
              end
          | None => None
          end
      end
  end.

(** The store methods with their displays, under their tags. *)
Definition SchemaGenerator_shapes_st : list (string * (method_st * shape)) :=
  [ ("Organization", (generate_organization_st, organization_shape));
    ("Product", (generate_product_st, product_shape));
    ("Article", (generate_article_st, article_shape)) ].

(** The method name [__init__] looks up for each tag, in the order of
    the display. *)
Definition schema_type_methods : list (string * string) :=
  [ ("Organization", "generate_organization");
    ("Person", "generate_person");
    ("Product", "generate_product");
    ("Article", "generate_article");
    ("LocalBusiness", "generate_local_business");
    ("Event", "generate_event") ].

(** [hasattr(self, name)] for an instance of a class whose methods are
    [cls]. *)
Definition hasattr {A} (cls : list (string * A)) (name : string) : bool :=
  match assoc name cls with
  | Some _ => true
  | None => false
  end.


(** * Properties *)

(** ** Dictionary access *)

Lemma get_present (data : record) key default v :
  data !! key = Some v → get data key default = v.
Proof. unfold get. intros ->. reflexivity. Qed.

Lemma get_absent (data : record) key default :
  data !! key = None → get data key default = default.
Proof. unfold get. intros ->. reflexivity. Qed.

Lemma assoc_cons {A} key k (v : A) rest :
  assoc key ((k, v) :: rest) = if String.eqb k key then Some v else assoc key rest.
Proof. reflexivity. Qed.

Lemma assoc_None {A} key (kvs : list (string * A)) :
  assoc key kvs = None ↔ ¬ In key (keys kvs).
Proof.
  induction kvs as [|[k v] rest IH]; simpl.
  - tauto.
  - destruct (String.eqb_spec k key) as [->|Hne].
    + split; [discriminate | intros H; exfalso; apply H; now left].
    + rewrite IH. split.
      * intros H [Heq|Hin]; [now apply Hne | now apply H].
      * intros H Hin. apply H. now right.
Qed.


Lemma assoc_is_Some {A} key (kvs : list (string * A)) :
  In key (keys kvs) → is_Some (assoc key kvs).
Proof.
  intros Hin. destruct (assoc key kvs) eqn:E; [eauto|].
  apply assoc_None in E. contradiction.
Qed.

(** ** The displays are the methods *)

Lemma generate_organization_fill data :
  generate_organization data = fill data organization_shape.
Proof. reflexivity. Qed.

Lemma generate_product_fill data :
  generate_product data = fill data product_shape.
Proof. reflexivity. Qed.

Lemma generate_article_fill data :
  generate_article data = fill data article_shape.
Proof. reflexivity. Qed.

Lemma SchemaGenerator_shapes_cases tag (m : method) t :
  assoc tag SchemaGenerator_shapes = Some (m, t) →
  (tag = "Organization" ∧ m = generate_organization ∧ t = organization_shape)
  ∨ (tag = "Product" ∧ m = generate_product ∧ t = product_shape)
  ∨ (tag = "Article" ∧ m = generate_article ∧ t = article_shape).
Proof.
  unfold SchemaGenerator_shapes. rewrite !assoc_cons. simpl assoc.
  repeat match goal with
  | |- context [String.eqb ?a tag] =>
      destruct (String.eqb_spec a tag) as [<-|?]
  end; intros H; inversion H; subst; auto 6.
Qed.

Lemma SchemaGenerator_shapes_fill tag (m : method) t data :
  assoc tag SchemaGenerator_shapes = Some (m, t) → m data = fill data t.
Proof.
  intros H. apply SchemaGenerator_shapes_cases in H.
  destruct H as [(_ & -> & ->)|[(_ & -> & ->)|(_ & -> & ->)]]; reflexivity.
Qed.

(** Every shape method stamps the schema.org context and its own tag on
    the root of its document. *)
Lemma shape_methods_root_literals tag (m : method) t data :
  assoc tag SchemaGenerator_shapes = Some (m, t) →
  field "@context" (m data) = Some (DStr "https://schema.org")
  ∧ field "@type" (m data) = Some (DStr tag).
Proof.
  intros H. apply SchemaGenerator_shapes_cases in H.
  destruct H as [(-> & -> & _)|[(-> & -> & _)|(-> & -> & _)]];
    split; reflexivity.
Qed.

(** A leaf read from the input holds [data.get(key, default)]. *)
Lemma sourced_leaf_value tag (m : method) t data path key default :
  assoc tag SchemaGenerator_shapes = Some (m, t) →
  In (path, key, default) (sourced_leaves t) →
  at_path path (m data) = Some (DStr (get data key default)).
Proof.
  intros H Hin. apply SchemaGenerator_shapes_cases in H.
  destruct H as [(_ & -> & ->)|[(_ & -> & ->)|(_ & -> & ->)]];
    simpl in Hin;
    repeat (destruct Hin as [Hin|Hin]; [inversion Hin; subst; reflexivity|]);
    contradiction.
Qed.

(** The only default that is not the empty string. *)
Lemma sourced_leaf_default tag (m : method) t path key default :
  assoc tag SchemaGenerator_shapes = Some (m, t) →
  In (path, key, default) (sourced_leaves t) →
  default = ""
  ∨ (tag = "Product" ∧ path = ["offers"; "priceCurrency"]
     ∧ key = "currency" ∧ default = "USD").
Proof.
  intros H Hin. apply SchemaGenerator_shapes_cases in H.
  destruct H as [(-> & _ & ->)|[(-> & _ & ->)|(-> & _ & ->)]];
    simpl in Hin;
    repeat (destruct Hin as [Hin|Hin]; [inversion Hin; subst; auto|]);
    contradiction.
Qed.

(** ** The constructor *)

Section Constructor.
Context {A : Type}.
Implicit Types (cls schema_types : list (string * A)).

Lemma getattr_Ok cls name m :
  getattr cls name = Ok m ↔ assoc name cls = Some m.
Proof.
  unfold getattr. destruct (assoc name cls); split; congruence.
Qed.

Lemma getattr_Err cls name e :
  getattr cls name = Err e → e = AttributeError name ∧ assoc name cls = None.
Proof.
  unfold getattr. destruct (assoc name cls); [discriminate|].
  intros [= <-]. auto.
Qed.

(** A table is stored only with the six tags, in the order of the
    display. *)
Lemma SchemaGenerator_init_keys cls schema_types :
  SchemaGenerator_init cls = Ok schema_types →
  keys schema_types = schema_type_names.
Proof.
  unfold SchemaGenerator_init, mbind, result_bind.
  repeat (destruct (getattr cls _); [|discriminate]).
  intros [= <-]. reflexivity.
Qed.

(** The constructor raises nothing but attribute errors. *)
Lemma SchemaGenerator_init_error cls e :
  SchemaGenerator_init cls = Err e → ∃ name, e = AttributeError name.
Proof.
  unfold SchemaGenerator_init, mbind, result_bind.
  repeat match goal with
  | |- context [getattr cls ?n] =>
      destruct (getattr cls n) eqn:?;
      [| intros [= <-];
         match goal with H : getattr _ _ = Err _ |- _ =>
           apply getattr_Err in H; destruct H as [-> _] end;
         eexists; reflexivity ]
  end.
  discriminate.
Qed.

(** It raises as soon as [generate_person] is missing from a class that
    has [generate_organization]. *)
Lemma SchemaGenerator_init_no_person cls :
  is_Some (assoc "generate_organization" cls) →
  assoc "generate_person" cls = None →
  SchemaGenerator_init cls = Err (AttributeError "generate_person").
Proof.
  intros [m Hm] Hp. unfold SchemaGenerator_init, getattr.
  rewrite Hm, Hp. reflexivity.
Qed.

(** A class that defines all six methods gets its table. *)
Lemma SchemaGenerator_init_complete cls :
  (∀ name, In name [ "generate_organization"; "generate_person";
                     "generate_product"; "generate_article";
                     "generate_local_business"; "generate_event" ] →
           is_Some (assoc name cls)) →
  ∃ schema_types, SchemaGenerator_init cls = Ok schema_types.
Proof.
  intros H. unfold SchemaGenerator_init, getattr.
  repeat match goal with
  | |- context [assoc ?n cls] =>
      let m := fresh "m" in let E := fresh "E" in
      destruct (H n) as [m E]; [simpl; tauto|]; rewrite E
  end.
  eexists. reflexivity.
Qed.
End Constructor.

(** ** The dispatch *)

Lemma dispatch_invalid (schema_types : list (string * method)) tag data :
  dispatch schema_types tag data = Err InvalidSchemaType
  ↔ ¬ In tag (keys schema_types).
Proof.
  unfold dispatch. rewrite <- assoc_None.
  destruct (assoc tag schema_types); split; congruence.
Qed.

(** Whatever the class, a recognized tag is never answered with the
    invalid-type error: either the constructor has raised, or the tag is
    in the table. *)
Lemma build_in_recognized (cls : list (string * method)) tag data :
  In tag schema_type_names → build_in cls tag data ≠ Err InvalidSchemaType.
Proof.
  intros Hin. unfold build_in.
  destruct (SchemaGenerator_init cls) as [tbl|e] eqn:E; simpl.
  - intros H. apply dispatch_invalid in H.
    rewrite (SchemaGenerator_init_keys _ _ E) in H. contradiction.
  - apply SchemaGenerator_init_error in E. destruct E as [name ->]. discriminate.
Qed.

(** With a constructed table the invalid-type error is raised for the
    unrecognized tags and for no other. *)
Lemma build_in_invalid_iff (cls schema_types : list (string * method)) tag data :
  SchemaGenerator_init cls = Ok schema_types →
  build_in cls tag data = Err InvalidSchemaType ↔ ¬ In tag schema_type_names.
Proof.
  intros E. unfold build_in. rewrite E. unfold mbind, result_bind.
  rewrite dispatch_invalid, (SchemaGenerator_init_keys _ _ E). reflexivity.
Qed.

(** On any class that keeps the three methods of the source and on
    which the constructor returns, the tag of a shape method is answered
    with the document of that method. *)
Lemma build_in_shape_methods (cls schema_types : list (string * method))
    tag (m : method) t data :
  (∀ name m', assoc name SchemaGenerator_class = Some m' →
              assoc name cls = Some m') →
  SchemaGenerator_init cls = Ok schema_types →
  assoc tag SchemaGenerator_shapes = Some (m, t) →
  build_in cls tag data = Ok (m data).
Proof.
  intros Hext Hinit Htag. unfold build_in. revert Hinit.
  unfold SchemaGenerator_init, getattr, mbind, result_bind.
  rewrite (Hext "generate_organization" _ eq_refl).
  destruct (assoc "generate_person" cls); [|discriminate].
  rewrite (Hext "generate_product" _ eq_refl).
  rewrite (Hext "generate_article" _ eq_refl).
  destruct (assoc "generate_local_business" cls); [|discriminate].
  destruct (assoc "generate_event" cls); [|discriminate].
  intros _. apply SchemaGenerator_shapes_cases in Htag.
  destruct Htag as [(-> & -> & _)|[(-> & -> & _)|(-> & -> & _)]]; reflexivity.
Qed.

Lemma build_unfold tag data : build tag data = build_in SchemaGenerator_class tag data.
Proof. reflexivity. Qed.

Lemma generator_raises : generator = Err (AttributeError "generate_person").
Proof. reflexivity. Qed.

Lemma build_raises tag data : build tag data = Err (AttributeError "generate_person").
Proof. reflexivity. Qed.

(** ** What the shape methods put in their documents *)

Lemma sourced_leaf_default_cases tag (m : method) t path key default :
  assoc tag SchemaGenerator_shapes = Some (m, t) →
  In (path, key, default) (sourced_leaves t) →
  default = if decide (tag = "Product" ∧ key = "currency") then "USD" else "".
Proof.
  intros H Hin. apply SchemaGenerator_shapes_cases in H.
  destruct H as [(-> & _ & ->)|[(-> & _ & ->)|(-> & _ & ->)]];
    simpl in Hin;
    repeat (destruct Hin as [Hin|Hin]; [inversion Hin; subst; reflexivity|]);
    contradiction.
Qed.

(** The fixed literals and the currency of a Product, the contact type
    of an Organization. *)
Lemma generate_product_offers data :
  at_path ["offers"; "availability"] (generate_product data)
    = Some (DStr "https://schema.org/InStock")
  ∧ at_path ["offers"; "priceCurrency"] (generate_product data)
    = Some (DStr (get data "currency" "USD")).
Proof. split; reflexivity. Qed.

Lemma generate_organization_contact_type data :
  at_path ["contactPoint"; "contactType"] (generate_organization data)
    = Some (DStr "customer service").
Proof. reflexivity. Qed.

(** An Article files [title] under [headline] and [date] under
    [datePublished], and has no entry named [title] or [date]. *)
Lemma generate_article_remaps data :
  field "headline" (generate_article data) = Some (DStr (get data "title" ""))
  ∧ field "datePublished" (generate_article data) = Some (DStr (get data "date" ""))
  ∧ field "title" (generate_article data) = None
  ∧ field "date" (generate_article data) = None.
Proof. repeat split; reflexivity. Qed.

(** ** The claims on [build] and on the documents *)

(** C1. The claim promises a document with the right [@context] and
    [@type] for every recognized tag and every record. On the code, the
    constructor raises before any request is served: at the empty
    record, each of the six recognized tags ends in the attribute error
    for [generate_person] and no document is returned. *)
Theorem build_recognized_tags_raise :
  Forall (λ tag, build tag ∅ = Err (AttributeError "generate_person")
                 ∧ ∀ d, build tag ∅ ≠ Ok d)
         schema_type_names.
Proof.
  unfold schema_type_names. repeat constructor; discriminate.
Qed.

(** C2, as it is written, fails at the price currency of a Product: the
    leaf is read from the key [currency], the empty record has no such
    key, and the leaf is ["USD"], not the empty string. *)
Lemma default_fill_counterexample :
  assoc "Product" SchemaGenerator_shapes = Some (generate_product, product_shape)
  ∧ In (["offers"; "priceCurrency"], "currency", "USD")
       (sourced_leaves product_shape)
  ∧ (∅ : record) !! "currency" = None
  ∧ at_path ["offers"; "priceCurrency"] (generate_product ∅) = Some (DStr "USD")
  ∧ at_path ["offers"; "priceCurrency"] (generate_product ∅) ≠ Some (DStr "").
Proof.
  split; [reflexivity|]. split; [simpl; tauto|].
  split; [reflexivity|]. split; [reflexivity|discriminate].
Qed.

(** C2, amended. For every input record and each of the three shape
    methods (Organization, Product, Article), every leaf of the document
    that is read from an input key absent from the record is the empty
    string, except the leaf of a Product read from [currency]
    ([offers.priceCurrency]), which is then ["USD"]. *)
Theorem default_fill_except_currency tag (m : method) t
    (data : record) path key default :
  assoc tag SchemaGenerator_shapes = Some (m, t) →
  In (path, key, default) (sourced_leaves t) →
  data !! key = None →
  at_path path (m data)
  = Some (DStr (if decide (tag = "Product" ∧ key = "currency")
                then "USD" else "")).
Proof.
  intros H Hin Habs.
  rewrite (sourced_leaf_value _ _ _ data _ _ _ H Hin).
  rewrite (get_absent _ _ _ Habs).
  rewrite (sourced_leaf_default_cases _ _ _ _ _ _ H Hin) at 1.
  reflexivity.
Qed.

Lemma default_fill_except_currency_witness :
  at_path ["address"; "streetAddress"] (generate_organization acme)
  = Some (DStr "")
  ∧ at_path ["offers"; "priceCurrency"] (generate_product acme)
  = Some (DStr "USD").
Proof.
  split.
  - apply (default_fill_except_currency "Organization" generate_organization
             organization_shape acme ["address"; "streetAddress"] "street" "");
      [reflexivity | simpl; tauto | vm_compute; reflexivity].
  - apply (default_fill_except_currency "Product" generate_product
             product_shape acme ["offers"; "priceCurrency"] "currency" "USD");
      [reflexivity | simpl; tauto | vm_compute; reflexivity].
Defined.

(** C3. The claim has [build "NotARealType" {}] fail with
    [UnknownTypeKind] and allows no other failure. On the code the call
    ends in the attribute error raised by the constructor; the
    membership test of line 201 is never reached. *)
Theorem build_unknown_tag_raises_attribute_error :
  ¬ In "NotARealType" schema_type_names
  ∧ build "NotARealType" ∅ = Err (AttributeError "generate_person")
  ∧ build "NotARealType" ∅ ≠ Err UnknownTypeKind.
Proof.
  split; [|split; [reflexivity|discriminate]].
  simpl. intros H. repeat (destruct H as [H|H]; [discriminate|]). exact H.
Qed.

(** C4. For every tag among Organization, Person, Product, Article,
    LocalBusiness and Event and every input record, [build] does not
    fail with [UnknownTypeKind]; this holds on the class as written and
    on every class the constructor may be run on. *)
Theorem build_recognized_not_unknown tag (data : record) :
  In tag schema_type_names →
  build tag data ≠ Err UnknownTypeKind
  ∧ ∀ cls, build_in cls tag data ≠ Err UnknownTypeKind.
Proof.
  intros Hin. split.
  - rewrite build_unfold. now apply build_in_recognized.
  - intros cls. now apply build_in_recognized.
Qed.

Lemma build_recognized_not_unknown_witness :
  build "Person" acme ≠ Err UnknownTypeKind
  ∧ ∀ cls, build_in cls "Person" acme ≠ Err UnknownTypeKind.
Proof.
  apply (build_recognized_not_unknown "Person" acme). simpl. tauto.
Defined.

(** C5. The table built by [__init__] names [generate_person],
    [generate_local_business] and [generate_event]; the class defines
    none of them. Constructing the generator therefore raises an
    attribute error, every call of [build] ends in that error, which is
    not [UnknownTypeKind], and no document is produced for any tag, in
    particular for Person, LocalBusiness and Event. *)
Theorem constructor_raises_attribute_error :
  assoc "generate_person" SchemaGenerator_class = None
  ∧ assoc "generate_local_business" SchemaGenerator_class = None
  ∧ assoc "generate_event" SchemaGenerator_class = None
  ∧ generator = Err (AttributeError "generate_person")
  ∧ (∀ tag data, build tag data = Err (AttributeError "generate_person"))
  ∧ (∀ tag data, build tag data ≠ Err UnknownTypeKind)
  ∧ (∀ tag data d, build tag data ≠ Ok d).
Proof.
  repeat split; try reflexivity; intros; rewrite build_raises; discriminate.
Qed.

(** C6, as it is written, fails at a record whose currency is ["USD"]:
    the price currency is ["USD"] although the key is present, so it is
    not ["USD"] exactly when the key is absent. *)
Lemma price_currency_counterexample :
  ¬ ∀ data : record,
      at_path ["offers"; "priceCurrency"] (generate_product data)
        = Some (DStr "USD")
      ↔ data !! "currency" = None.
Proof.
  intros H. specialize (H (<["currency" := "USD"]> ∅)).
  destruct H as [H _]. specialize (H eq_refl). vm_compute in H. discriminate.
Qed.

(** C6, amended. For every input record: the [offers.availability] of
    the Product document is ["https://schema.org/InStock"]; the
    [contactPoint.contactType] of the Organization document is
    ["customer service"]; the [offers.priceCurrency] of the Product
    document is ["USD"] when the key [currency] is absent from the
    record and the record's value of [currency] otherwise, so that it
    is ["USD"] exactly when the key is absent or holds ["USD"]. *)
Theorem fixed_literals_and_currency (data : record) :
  at_path ["offers"; "availability"] (generate_product data)
    = Some (DStr "https://schema.org/InStock")
  ∧ at_path ["contactPoint"; "contactType"] (generate_organization data)
    = Some (DStr "customer service")
  ∧ at_path ["offers"; "priceCurrency"] (generate_product data)
    = Some (DStr (match data !! "currency" with
                  | None => "USD"
                  | Some currency => currency
                  end))
  ∧ (at_path ["offers"; "priceCurrency"] (generate_product data)
       = Some (DStr "USD")
     ↔ data !! "currency" = None ∨ data !! "currency" = Some "USD").
Proof.
  split; [reflexivity|]. split; [reflexivity|]. split; [reflexivity|].
  destruct (generate_product_offers data) as [_ ->]. unfold get.
  destruct (data !! "currency") as [c|]; split.
  - intros [= ->]. now right.
  - intros [H|[= ->]]; [discriminate|reflexivity].
  - now left.
  - reflexivity.
Qed.

(** C7. The claim has [build] file the title of an Article under
    [headline] and its date under [datePublished]. The method
    [generate_article] does so on the record of the example, and its
    document has no [title] or [date] entry; the call of [build] on
    that record returns no document, since the constructor raises. *)
Theorem build_article_example_raises :
  build "Article" dated = Err (AttributeError "generate_person")
  ∧ field "headline" (generate_article dated) = Some (DStr "T")
  ∧ field "datePublished" (generate_article dated) = Some (DStr "2024-01-15")
  ∧ field "title" (generate_article dated) = None
  ∧ field "date" (generate_article dated) = None.
Proof. repeat split; vm_compute; reflexivity. Qed.

(** C8. The method [generate_organization] gives the four values of the
    end-to-end example; the call of [build] on the same record returns
    no document, since the constructor raises. *)
Theorem build_organization_example_raises :
  build "Organization" acme = Err (AttributeError "generate_person")
  ∧ at_path ["name"] (generate_organization acme) = Some (DStr "Acme")
  ∧ at_path ["address"; "addressLocality"] (generate_organization acme)
    = Some (DStr "Springfield")
  ∧ at_path ["address"; "streetAddress"] (generate_organization acme)
    = Some (DStr "")
  ∧ at_path ["contactPoint"; "telephone"] (generate_organization acme)
    = Some (DStr "").
Proof. repeat split; vm_compute; reflexivity. Qed.

(** ** The store *)

Lemma record_dict_assoc (r : record) k :
  assoc k (record_dict r) = VStr <$> r !! k.
Proof.
  unfold record_dict. rewrite <- (list_to_map_to_list r) at 2.
  induction (map_to_list r) as [|[k' v] rest IH]; simpl.
  - rewrite lookup_empty. reflexivity.
  - destruct (String.eqb_spec k' k) as [->|Hne].
    + rewrite lookup_insert_eq. reflexivity.
    + rewrite lookup_insert_ne by exact Hne. exact IH.
Qed.

Lemma holds_record_dict (h : store) l (r : record) :
  h !! l = Some (record_dict r) → holds_record h l r.
Proof. intros H. exists (record_dict r). split; [exact H|apply record_dict_assoc]. Qed.

Lemma holds_record_app (h ext : store) l (r : record) :
  holds_record h l r → holds_record (h ++ ext) l r.
Proof.
  intros (d & Hd & Hr). exists d. split; [|exact Hr].
  now apply lookup_app_l_Some.
Qed.

Lemma dict_get_record (h : store) l (r : record) key default :
  holds_record h l r →
  dict_get l key default h = (Ok (VStr (get r key default)), h).
Proof.
  intros (d & Hd & Hr). unfold dict_get, get. rewrite Hd, Hr.
  destruct (r !! key); reflexivity.
Qed.

Ltac run_method :=
  unfold mbind, M_bind;
  repeat (first
    [ erewrite dict_get_record by eauto using holds_record_app
    | progress unfold new_dict ];
    cbv beta iota).

Lemma lookup_ext (h ext : store) i : (h ++ ext) !! (length h + i) = ext !! i.
Proof.
  rewrite lookup_app_r by lia. f_equal. lia.
Qed.

Lemma lookup_ext_0 (h ext : store) : (h ++ ext) !! length h = ext !! 0.
Proof. rewrite <- (lookup_ext h ext 0). f_equal. lia. Qed.

Ltac normalize_store :=
  rewrite ?length_app; simpl length; rewrite <- ?app_assoc; simpl app.

Lemma generate_organization_st_run h l (r : record) :
  holds_record h l r →
  generate_organization_st l h
  = (Ok (length h + 1 + 1), h ++ organization_objects r (length h)).
Proof.
  intros Hrec. unfold generate_organization_st. run_method.
  normalize_store. reflexivity.
Qed.

Lemma generate_product_st_run h l (r : record) :
  holds_record h l r →
  generate_product_st l h
  = (Ok (length h + 1 + 1), h ++ product_objects r (length h)).
Proof.
  intros Hrec. unfold generate_product_st. run_method.
  normalize_store. reflexivity.
Qed.

Lemma generate_article_st_run h l (r : record) :
  holds_record h l r →
  generate_article_st l h
  = (Ok (length h + 1 + 1), h ++ article_objects r (length h)).
Proof.
  intros Hrec. unfold generate_article_st. run_method.
  normalize_store. reflexivity.
Qed.

(** The run of the end-to-end example on a store that holds only the
    record: the address and the contact point are allocated first, the
    root last, and the record stays at address 0. *)
Example generate_organization_st_acme :
  generate_organization_st 0 [record_dict acme]
  = (Ok 3,
     [ record_dict acme;
       [ ("@type", VStr "PostalAddress");
         ("streetAddress", VStr "");
         ("addressLocality", VStr "Springfield");
         ("addressRegion", VStr "");
         ("postalCode", VStr "");
         ("addressCountry", VStr "") ];
       [ ("@type", VStr "ContactPoint");
         ("telephone", VStr "");
         ("contactType", VStr "customer service") ];
       [ ("@context", VStr "https://schema.org");
         ("@type", VStr "Organization");
         ("name", VStr "Acme");
         ("url", VStr "");
         ("logo", VStr "");
         ("description", VStr "");
         ("address", VRef 1);
         ("contactPoint", VRef 2) ] ]).
Proof. vm_compute. reflexivity. Qed.

(** A reference that holds no dictionary: the first [get] raises and
    nothing is allocated. *)
Example generate_product_st_dangling :
  generate_product_st 7 [] = (Err (AttributeError "get"), []).
Proof. reflexivity. Qed.

(** *** The document in the store is the document of the method *)

Ltac read_store :=
  repeat (rewrite ?lookup_ext, ?lookup_ext_0; simpl).

Lemma generate_organization_st_outcome h l (r : record) :
  holds_record h l r →
  outcome (generate_organization_st l h) = Ok (Some (generate_organization r)).
Proof.
  intros Hrec. rewrite (generate_organization_st_run _ _ _ Hrec).
  unfold outcome, organization_objects.
  rewrite <- (Nat.add_assoc (length h) 1 1). read_store. reflexivity.
Qed.

Lemma generate_product_st_outcome h l (r : record) :
  holds_record h l r →
  outcome (generate_product_st l h) = Ok (Some (generate_product r)).
Proof.
  intros Hrec. rewrite (generate_product_st_run _ _ _ Hrec).
  unfold outcome, product_objects.
  rewrite <- (Nat.add_assoc (length h) 1 1). read_store. reflexivity.
Qed.

Lemma generate_article_st_outcome h l (r : record) :
  holds_record h l r →
  outcome (generate_article_st l h) = Ok (Some (generate_article r)).
Proof.
  intros Hrec. rewrite (generate_article_st_run _ _ _ Hrec).
  unfold outcome, article_objects.
  rewrite <- (Nat.add_assoc (length h) 1 1). read_store. reflexivity.
Qed.

(** *** The store model agrees with the value model *)

Lemma assoc_related {A B} (R : A → B → Prop) l1 l2 key :
  related R l1 l2 →
  match assoc key l1, assoc key l2 with
  | Some a, Some b => R a b
  | None, None => True
  | _, _ => False
  end.
Proof.
  induction 1 as [|[k1 a] [k2 b] l1 l2 [Hk HR] _ IH]; simpl in *.
  - exact I.
  - subst k2. destruct (String.eqb k1 key); [exact HR|exact IH].
Qed.

Lemma SchemaGenerator_init_related {A B} (R : A → B → Prop) cls1 cls2 :
  related R cls1 cls2 →
  match SchemaGenerator_init cls1, SchemaGenerator_init cls2 with
  | Ok t1, Ok t2 => related R t1 t2
  | Err e1, Err e2 => e1 = e2
  | _, _ => False
  end.
Proof.
  intros H. unfold SchemaGenerator_init, getattr, mbind, result_bind.
  repeat match goal with
  | |- context [assoc ?n cls1] =>
      let P := fresh "P" in
      pose proof (assoc_related R cls1 cls2 n H) as P;
      destruct (assoc n cls1), (assoc n cls2);
      try contradiction; try reflexivity
  end.
  unfold related. repeat constructor; assumption.
Qed.

Lemma SchemaGenerator_class_related :
  related refines SchemaGenerator_class_st SchemaGenerator_class.
Proof.
  unfold related, SchemaGenerator_class_st, SchemaGenerator_class.
  repeat constructor; simpl; intros h l r Hrec.
  - now apply generate_organization_st_outcome.
  - now apply generate_product_st_outcome.
  - now apply generate_article_st_outcome.
Qed.

(** On classes with related methods, [build] on the store returns what
    [build] on values returns: the same error, or the address of the
    same document. *)
Lemma build_in_st_refines cls_st cls tag h l (r : record) :
  related refines cls_st cls →
  holds_record h l r →
  outcome (build_in_st cls_st tag l h) = document_of (build_in cls tag r).
Proof.
  intros Hcls Hrec. unfold build_in_st, build_in, mbind, result_bind.
  pose proof (SchemaGenerator_init_related refines _ _ Hcls) as Hinit.
  destruct (SchemaGenerator_init cls_st) as [t1|e1],
           (SchemaGenerator_init cls) as [t2|e2]; try contradiction.
  - unfold dispatch_st, dispatch.
    pose proof (assoc_related refines t1 t2 tag Hinit) as Hm.
    destruct (assoc tag t1) as [m_st|], (assoc tag t2) as [m|];
      try contradiction.
    + simpl. now apply Hm.
    + reflexivity.
  - subst e2. reflexivity.
Qed.

(** *** What a run leaves in the store *)

Lemma preserves_ext (h ext : store) : preserves h (h ++ ext).
Proof. intros l d H. now apply lookup_app_l_Some. Qed.

Lemma preserves_refl (h : store) : preserves h h.
Proof. intros l d H. exact H. Qed.

Lemma fresh_document_ext (h ext : store) i :
  i < length ext →
  Forall (refs_within (length h) (length h + length ext)) ext →
  fresh_document h (h ++ ext) (length h + i).
Proof.
  intros Hi Hrefs. split; [|split].
  - apply lookup_ge_None. lia.
  - rewrite lookup_ext. now apply lookup_lt_is_Some.
  - intros l d key l' Hl Hd Hkey.
    apply lookup_ge_None in Hl.
    rewrite lookup_app_r in Hd by exact Hl.
    rewrite Forall_forall in Hrefs.
    assert (Hin : d ∈ ext) by (apply list_elem_of_lookup; eauto).
    specialize (Hrefs d Hin key l' Hkey). split.
    + apply lookup_ge_None. lia.
    + apply lookup_lt_is_Some. rewrite length_app. lia.
Qed.

Ltac solve_refs_within :=
  repeat first [apply Forall_nil_2 | apply Forall_cons_2];
  intros key l' H; cbn [assoc] in H;
  repeat match type of H with
  | context [String.eqb ?a key] => destruct (String.eqb a key)
  end;
  try discriminate; injection H as <-; simpl; lia.

Lemma generate_organization_st_no_side_effects :
  no_side_effects generate_organization_st.
Proof.
  intros h data r Hrec. rewrite (generate_organization_st_run _ _ _ Hrec).
  simpl. split; [apply preserves_ext|]. split; [now apply holds_record_app|].
  intros root [= <-]. rewrite <- Nat.add_assoc.
  apply fresh_document_ext; [simpl; lia|].
  unfold organization_objects. solve_refs_within.
Qed.

Lemma generate_product_st_no_side_effects :
  no_side_effects generate_product_st.
Proof.
  intros h data r Hrec. rewrite (generate_product_st_run _ _ _ Hrec).
  simpl. split; [apply preserves_ext|]. split; [now apply holds_record_app|].
  intros root [= <-]. rewrite <- Nat.add_assoc.
  apply fresh_document_ext; [simpl; lia|].
  unfold product_objects. solve_refs_within.
Qed.

Lemma generate_article_st_no_side_effects :
  no_side_effects generate_article_st.
Proof.
  intros h data r Hrec. rewrite (generate_article_st_run _ _ _ Hrec).
  simpl. split; [apply preserves_ext|]. split; [now apply holds_record_app|].
  intros root [= <-]. rewrite <- Nat.add_assoc.
  apply fresh_document_ext; [simpl; lia|].
  unfold article_objects. solve_refs_within.
Qed.

Lemma assoc_Some_In {A} key (kvs : list (string * A)) v :
  assoc key kvs = Some v → In (key, v) kvs.
Proof.
  induction kvs as [|[k v'] rest IH]; simpl; [discriminate|].
  destruct (String.eqb_spec k key) as [->|_].
  - intros [= ->]. now left.
  - intros H. right. now apply IH.
Qed.

(** The table holds nothing but attributes of the class. *)
Lemma SchemaGenerator_init_members {A} (cls schema_types : list (string * A)) tag m :
  SchemaGenerator_init cls = Ok schema_types →
  assoc tag schema_types = Some m →
  ∃ name, assoc name cls = Some m.
Proof.
  unfold SchemaGenerator_init, getattr, mbind, result_bind.
  repeat match goal with
  | |- context [assoc ?n cls] => destruct (assoc n cls) eqn:?; [|discriminate]
  end.
  intros [= <-] H. cbn [assoc] in H.
  repeat match type of H with
  | context [String.eqb ?a tag] => destruct (String.eqb a tag)
  end; try discriminate; injection H as <-; eauto.
Qed.

(** The constructor and the dispatch touch no dictionary: [build] has
    no side effect as soon as the methods of the class have none. *)
Lemma build_in_st_no_side_effects cls tag :
  (∀ name m, assoc name cls = Some m → no_side_effects m) →
  no_side_effects (build_in_st cls tag).
Proof.
  intros Hcls h data r Hrec. unfold build_in_st.
  destruct (SchemaGenerator_init cls) as [tbl|e] eqn:Einit.
  - unfold dispatch_st. destruct (assoc tag tbl) as [m|] eqn:Em.
    + destruct (SchemaGenerator_init_members _ _ _ _ Einit Em) as [name Hname].
      exact (Hcls name m Hname h data r Hrec).
    + simpl. split; [apply preserves_refl|]. split; [exact Hrec|discriminate].
  - simpl. split; [apply preserves_refl|]. split; [exact Hrec|discriminate].
Qed.

Lemma SchemaGenerator_class_st_no_side_effects name m :
  assoc name SchemaGenerator_class_st = Some m → no_side_effects m.
Proof.
  unfold SchemaGenerator_class_st. cbn [assoc].
  repeat match goal with
  | |- context [String.eqb ?a name] => destruct (String.eqb a name)
  end; intros [= <-].
  - apply generate_organization_st_no_side_effects.
  - apply generate_product_st_no_side_effects.
  - apply generate_article_st_no_side_effects.
Qed.

(** ** The claims on purity *)

(** C9. [build] is deterministic. Two calls with the same tag, on any
    two stores that hold the same record at any two addresses, give the
    caller the same outcome, and that outcome is the value [build tag r],
    a function of the tag and the record alone. The same holds for each
    method of the class called on its own, whose outcome is the document
    of the corresponding value-level method. *)
Theorem build_deterministic tag (r : record) h1 l1 h2 l2 :
  holds_record h1 l1 r →
  holds_record h2 l2 r →
  outcome (build_st tag l1 h1) = outcome (build_st tag l2 h2)
  ∧ outcome (build_st tag l1 h1) = document_of (build tag r)
  ∧ related (λ m_st m, outcome (m_st l1 h1) = Ok (Some (m r))
                       ∧ outcome (m_st l2 h2) = Ok (Some (m r)))
      SchemaGenerator_class_st SchemaGenerator_class.
Proof.
  intros H1 H2.
  assert (Hb : ∀ h l, holds_record h l r →
                 outcome (build_st tag l h) = document_of (build tag r)).
  { intros h l Hrec. rewrite build_unfold. unfold build_st.
    apply build_in_st_refines; [apply SchemaGenerator_class_related|exact Hrec]. }
  split; [|split].
  - rewrite (Hb _ _ H1), (Hb _ _ H2). reflexivity.
  - exact (Hb _ _ H1).
  - pose proof SchemaGenerator_class_related as Hcls.
    unfold related in *. eapply Forall2_impl; [exact Hcls|].
    intros a b [Hname Href]. split; [exact Hname|]. split; now apply Href.
Qed.

Lemma build_deterministic_witness :
  outcome (build_st "Organization" 0 [record_dict acme])
  = outcome (build_st "Organization" 1 [[]; record_dict acme])
  ∧ outcome (build_st "Organization" 0 [record_dict acme])
    = document_of (build "Organization" acme)
  ∧ related (λ m_st m,
               outcome (m_st 0 [record_dict acme]) = Ok (Some (m acme))
               ∧ outcome (m_st 1 [[]; record_dict acme]) = Ok (Some (m acme)))
      SchemaGenerator_class_st SchemaGenerator_class.
Proof.
  apply (build_deterministic "Organization" acme
           [record_dict acme] 0 [[]; record_dict acme] 1);
    apply holds_record_dict; reflexivity.
Defined.

(** C10. [build] has no side effects. For every tag and every store
    that holds the input record, after the call every dictionary of the
    store, the input record among them, is where it was with the entries
    it had, and a returned document consists of dictionaries allocated
    by the call. The store holds every dictionary of the process, so
    nothing outside the new document changes. The same holds for each
    method of the class called on its own. *)
Theorem build_no_side_effects :
  (∀ tag, no_side_effects (build_st tag))
  ∧ (∀ name m, assoc name SchemaGenerator_class_st = Some m →
       no_side_effects m).
Proof.
  split.
  - intros tag. apply build_in_st_no_side_effects.
    apply SchemaGenerator_class_st_no_side_effects.
  - apply SchemaGenerator_class_st_no_side_effects.
Qed.

Lemma build_no_side_effects_witness :
  preserves [record_dict acme] (generate_product_st 0 [record_dict acme]).2
  ∧ holds_record (generate_product_st 0 [record_dict acme]).2 0 acme
  ∧ ∀ root, (generate_product_st 0 [record_dict acme]).1 = Ok root →
      fresh_document [record_dict acme]
        (generate_product_st 0 [record_dict acme]).2 root.
Proof.
  apply (proj2 build_no_side_effects "generate_product" generate_product_st
           eq_refl [record_dict acme] 0 acme).
  apply holds_record_dict. reflexivity.
Defined.

(** ** Displays in general *)

Lemma shape_ind_entries (P : shape → Prop) :
  (∀ s, P (Literal s)) →
  (∀ key default, P (Get key default)) →
  (∀ entries, Forall (λ e, P e.2) entries → P (Dict entries)) →
  ∀ t, P t.
Proof.
  intros HL HG HD. fix IH 1. intros [s|key default|entries].
  - apply HL.
  - apply HG.
  - apply HD. induction entries as [|[k t] rest IHrest].
    + apply Forall_nil_2.
    + apply Forall_cons_2; [apply IH|exact IHrest].
Qed.

Lemma fill_Dict data entries :
  fill data (Dict entries) = DMap (map (λ '(k, t), (k, fill data t)) entries).
Proof.
  simpl. f_equal. induction entries as [|[k t] rest IH]; simpl; [reflexivity|].
  now rewrite IH.
Qed.

Lemma source_keys_Dict_cons k t rest :
  source_keys (Dict ((k, t) :: rest)) = source_keys t ++ source_keys (Dict rest).
Proof.
  unfold source_keys. simpl. rewrite map_app, map_map. f_equal.
  apply map_ext. now intros [[path key] default].
Qed.

(** A display reads the record at its source keys only. *)
Lemma fill_agree t (r1 r2 : record) :
  (∀ key, In key (source_keys t) → r1 !! key = r2 !! key) →
  fill r1 t = fill r2 t.
Proof.
  induction t as [s|key default|entries IH] using shape_ind_entries; intros H.
  - reflexivity.
  - simpl. unfold get. rewrite (H key); [reflexivity|now left].
  - rewrite !fill_Dict. f_equal.
    induction entries as [|[k t] rest IHrest]; [reflexivity|].
    apply Forall_cons in IH. destruct IH as [IHt IHr]. simpl in IHt.
    rewrite source_keys_Dict_cons in H. simpl. f_equal.
    + f_equal. apply IHt. intros key Hin. apply H, in_or_app. now left.
    + apply IHrest; [exact IHr|].
      intros key Hin. apply H, in_or_app. now right.
Qed.

(** The nesting and the keys of a filled display are those of the
    display. *)
Lemma skeleton_fill t (r1 r2 : record) :
  skeleton (fill r1 t) = skeleton (fill r2 t).
Proof.
  induction t as [s|key default|entries IH] using shape_ind_entries.
  - reflexivity.
  - reflexivity.
  - rewrite !fill_Dict. simpl. f_equal.
    induction entries as [|[k t] rest IHrest]; [reflexivity|].
    apply Forall_cons in IH. destruct IH as [IHt IHr]. simpl in IHt.
    simpl. rewrite IHt. f_equal. now apply IHrest.
Qed.

(** Storing under [key] the default of every leaf read from [key]
    changes nothing when the key was absent. *)
Lemma fill_insert_default t (data : record) key v :
  (∀ path default, In (path, key, default) (sourced_leaves t) → default = v) →
  data !! key = None →
  fill (<[key := v]> data) t = fill data t.
Proof.
  induction t as [s|key' default|entries IH] using shape_ind_entries;
    intros Hd Habs.
  - reflexivity.
  - simpl. unfold get. destruct (decide (key = key')) as [<-|Hne].
    + rewrite lookup_insert_eq, Habs. f_equal.
      symmetry. apply (Hd []). now left.
    + rewrite lookup_insert_ne by exact Hne. reflexivity.
  - rewrite !fill_Dict. f_equal.
    induction entries as [|[k t] rest IHrest]; [reflexivity|].
    apply Forall_cons in IH. destruct IH as [IHt IHr]. simpl in IHt.
    simpl. f_equal.
    + f_equal. apply IHt; [|exact Habs].
      intros path default Hin. apply (Hd (k :: path)). simpl.
      apply in_or_app. left.
      apply (in_map (λ '(p, key0, d0), (k :: p, key0, d0)) _ _ Hin).
    + apply IHrest; [exact IHr|].
      intros path default Hin. apply (Hd path). simpl.
      apply in_or_app. now right.
Qed.

(** ** Further properties of the shape methods *)

Lemma sourced_leaf_default_of tag (m : method) t path key default :
  assoc tag SchemaGenerator_shapes = Some (m, t) →
  In (path, key, default) (sourced_leaves t) →
  default = default_of tag key.
Proof.
  intros H Hin. apply SchemaGenerator_shapes_cases in H.
  destruct H as [(-> & _ & ->)|[(-> & _ & ->)|(-> & _ & ->)]];
    simpl in Hin;
    repeat (destruct Hin as [Hin|Hin]; [inversion Hin; subst; reflexivity|]);
    contradiction.
Qed.

(** X1. A shape method reads the record at the source keys of its
    display and nowhere else: two records that agree on those keys get
    the same document, whatever other keys they hold. *)
Theorem shape_methods_ignore_other_keys tag (m : method) t (r1 r2 : record) :
  assoc tag SchemaGenerator_shapes = Some (m, t) →
  (∀ key, In key (source_keys t) → r1 !! key = r2 !! key) →
  m r1 = m r2.
Proof.
  intros H Hagree.
  rewrite !(SchemaGenerator_shapes_fill _ _ _ _ H).
  now apply fill_agree.
Qed.

Lemma shape_methods_ignore_other_keys_witness :
  generate_article (<["price" := "99.99"]> dated) = generate_article dated.
Proof.
  apply (shape_methods_ignore_other_keys "Article" generate_article
           article_shape (<["price" := "99.99"]> dated) dated eq_refl).
  intros key Hin. apply lookup_insert_ne. intros <-.
  vm_compute in Hin. repeat (destruct Hin as [Hin|Hin]; [discriminate|]).
  exact Hin.
Defined.

(** X2. A value present in the record is copied unchanged to every leaf
    read from its key. *)
Theorem present_value_is_copied tag (m : method) t
    (data : record) path key default v :
  assoc tag SchemaGenerator_shapes = Some (m, t) →
  In (path, key, default) (sourced_leaves t) →
  data !! key = Some v →
  at_path path (m data) = Some (DStr v).
Proof.
  intros H Hin Hv.
  rewrite (sourced_leaf_value _ _ _ data _ _ _ H Hin).
  now rewrite (get_present _ _ _ _ Hv).
Qed.

Lemma present_value_is_copied_witness :
  at_path ["address"; "addressLocality"] (generate_organization acme)
  = Some (DStr "Springfield").
Proof.
  apply (present_value_is_copied "Organization" generate_organization
           organization_shape acme ["address"; "addressLocality"] "city" "");
    [reflexivity | simpl; tauto | vm_compute; reflexivity].
Defined.

(** X3. A document does not tell an absent key from a key that holds the
    default of the method: storing the default (the empty string, or
    ["USD"] for the currency of a Product) under an absent key leaves
    the document as it is. *)
Theorem explicit_default_same_as_absent tag (m : method) t
    (data : record) key :
  assoc tag SchemaGenerator_shapes = Some (m, t) →
  data !! key = None →
  m (<[key := default_of tag key]> data) = m data.
Proof.
  intros H Habs.
  rewrite !(SchemaGenerator_shapes_fill _ _ _ _ H).
  apply fill_insert_default; [|exact Habs].
  intros path default Hin. exact (sourced_leaf_default_of _ _ _ _ _ _ H Hin).
Qed.

Lemma explicit_default_same_as_absent_witness :
  generate_product (<["currency" := "USD"]> acme) = generate_product acme.
Proof.
  apply (explicit_default_same_as_absent "Product" generate_product
           product_shape acme "currency");
    [reflexivity | vm_compute; reflexivity].
Defined.

(** X4. The nesting and the keys of a document depend on the method
    alone, not on the record, and no dictionary of a document has two
    entries under one key. *)
Theorem shape_methods_fixed_skeleton :
  Forall (λ entry : string * (method * shape),
            ∀ r1 r2 : record,
              skeleton (entry.2.1 r1) = skeleton (entry.2.1 r2)
              ∧ distinct_keys (entry.2.1 r1) = true)
         SchemaGenerator_shapes.
Proof.
  unfold SchemaGenerator_shapes.
  repeat first [apply Forall_nil_2 | apply Forall_cons_2];
    intros r1 r2; split;
    first [ apply (skeleton_fill organization_shape)
          | apply (skeleton_fill product_shape)
          | apply (skeleton_fill article_shape)
          | vm_compute; reflexivity ].
Qed.

(** X5. The tag can be read back from a document: shape methods filed
    under different tags never return the same document, whatever the
    two records. *)
Theorem document_determines_tag tag1 tag2 (m1 m2 : method) t1 t2
    (r1 r2 : record) :
  assoc tag1 SchemaGenerator_shapes = Some (m1, t1) →
  assoc tag2 SchemaGenerator_shapes = Some (m2, t2) →
  tag1 ≠ tag2 →
  m1 r1 ≠ m2 r2.
Proof.
  intros H1 H2 Hne Heq. apply Hne.
  destruct (shape_methods_root_literals _ _ _ r1 H1) as [_ T1].
  destruct (shape_methods_root_literals _ _ _ r2 H2) as [_ T2].
  rewrite Heq, T2 in T1. now injection T1.
Qed.

Lemma document_determines_tag_witness :
  generate_product acme ≠ generate_article dated.
Proof.
  apply (document_determines_tag "Product" "Article" generate_product
           generate_article product_shape article_shape acme dated
           eq_refl eq_refl).
  discriminate.
Defined.

(** ** Further properties of the constructor and the handler *)

(** X6. The constructor looks the six methods up in the order of the
    display. It raises the attribute error of the first one the class
    lacks; when the class has all six it returns the table that files,
    under each tag, the attribute of the class with the matching name. *)
Theorem constructor_first_missing {A} (cls : list (string * A)) :
  match find (λ name, negb (hasattr cls name))
             (map snd schema_type_methods) with
  | Some name => SchemaGenerator_init cls = Err (AttributeError name)
  | None =>
      ∃ schema_types,
        SchemaGenerator_init cls = Ok schema_types
        ∧ Forall2 (λ '(tag, name) '(tag', m),
                     tag = tag' ∧ assoc name cls = Some m)
                  schema_type_methods schema_types
  end.
Proof.
  unfold SchemaGenerator_init, getattr, hasattr, schema_type_methods.
  cbn [map snd find].
  repeat match goal with
  | |- context [assoc ?n cls] =>
      destruct (assoc n cls) eqn:?; cbn [negb mbind result_bind];
      [|reflexivity]
  end.
  eexists. split; [reflexivity|].
  repeat first [apply Forall2_nil_2 | apply Forall2_cons_2]; auto.
Qed.





(** ** The page *)

Lemma assoc_app {A} key (l1 l2 : list (string * A)) :
  assoc key (l1 ++ l2)
  = match assoc key l1 with
    | Some v => Some v
    | None => assoc key l2
    end.
Proof.
  induction l1 as [|[k v] rest IH]; simpl; [reflexivity|].
  destruct (String.eqb k key); [reflexivity|exact IH].
Qed.

Lemma fold_left_insert_lookup (inputs : list (string * string))
    (acc : record) key :
  fold_left (λ (formData : record) '(id, value), <[id := value]> formData)
            inputs acc !! key
  = match assoc key (rev inputs) with
    | Some v => Some v
    | None => acc !! key
    end.
Proof.
  revert acc. induction inputs as [|[id v] rest IH]; intros acc; simpl.
  - reflexivity.
  - rewrite IH, assoc_app. destruct (assoc key (rev rest)); [reflexivity|].
    simpl. destruct (String.eqb_spec id key) as [->|Hne].
    + apply lookup_insert_eq.
    + now apply lookup_insert_ne.
Qed.

Lemma collect_form_data_lookup (inputs : list (string * string)) key :
  collect_form_data inputs !! key = assoc key (rev inputs).
Proof.
  unfold collect_form_data. rewrite fold_left_insert_lookup, lookup_empty.
  destruct (assoc key (rev inputs)); reflexivity.
Qed.

(** X9. The object [formData] built by [generateSchema] holds, for each
    id, the value of the last input with that id, and has no entry
    exactly for the ids that no input has. *)
Theorem collect_form_data_last_wins (inputs : list (string * string)) key :
  collect_form_data inputs !! key = assoc key (rev inputs)
  ∧ (collect_form_data inputs !! key = None ↔ ¬ In key (keys inputs)).
Proof.
  split; [apply collect_form_data_lookup|].
  rewrite collect_form_data_lookup, assoc_None.
  unfold keys. rewrite map_rev, <- in_rev. reflexivity.
Qed.

(** X10. What the page can put in a document. For each of the three
    types and whatever the user enters, a leaf read from a key that is
    the id of an input of the form holds the entered value, and a leaf
    read from any other key holds the default of the method: through the
    page the address and the logo of an Organization are always empty
    and the price currency of a Product is always ["USD"]. *)
Theorem page_leaf_values type (m : method) t
    (entered : string → string) path key default :
  assoc type SchemaGenerator_shapes = Some (m, t) →
  In (path, key, default) (sourced_leaves t) →
  at_path path (m (collect_form_data (form_inputs type entered)))
  = Some (DStr (match assoc key (form_fields type) with
                | Some _ => entered key
                | None => default
                end)).
Proof.
  intros H Hin.
  rewrite (sourced_leaf_value _ _ _ _ _ _ _ H Hin). do 2 f_equal.
  unfold get. rewrite collect_form_data_lookup.
  apply SchemaGenerator_shapes_cases in H.
  destruct H as [(-> & _ & ->)|[(-> & _ & ->)|(-> & _ & ->)]];
    simpl in Hin;
    repeat (destruct Hin as [Hin|Hin]; [inversion Hin; subst; reflexivity|]);
    contradiction.
Qed.

Lemma page_leaf_values_witness :
  at_path ["offers"; "priceCurrency"]
    (generate_product
       (collect_form_data (form_inputs "Product" (λ id, "EUR"))))
  = Some (DStr "USD")
  ∧ at_path ["offers"; "price"]
      (generate_product
         (collect_form_data (form_inputs "Product" (λ id, "EUR"))))
    = Some (DStr "EUR").
Proof.
  split.
  - apply (page_leaf_values "Product" generate_product product_shape
             (λ id, "EUR") ["offers"; "priceCurrency"] "currency" "USD");
      [reflexivity | simpl; tauto].
  - apply (page_leaf_values "Product" generate_product product_shape
             (λ id, "EUR") ["offers"; "price"] "price" "");
      [reflexivity | simpl; tauto].
Defined.

(** X11. The page and the class agree on the types and the keys. The
    select offers exactly the tags that have a shape method; every input
    of the form of such a tag has an id the method reads, so nothing the
    user enters is dropped; for any other type [updateForm] writes no
    input. *)
Theorem form_fields_are_read :
  form_options = keys SchemaGenerator_shapes
  ∧ Forall (λ entry : string * (method * shape),
              ∀ id, In id (keys (form_fields entry.1)) →
                    In id (source_keys entry.2.2))
           SchemaGenerator_shapes
  ∧ ∀ type, ¬ In type form_options → form_fields type = [].
Proof.
  split; [reflexivity|]. split.
  - unfold SchemaGenerator_shapes.
    repeat first [apply Forall_nil_2 | apply Forall_cons_2];
      intros id Hin; vm_compute in Hin; vm_compute;
      repeat (destruct Hin as [<-|Hin]; [tauto|]); contradiction.
  - intros type Hnot. unfold form_fields.
    repeat match goal with
    | |- context [String.eqb type ?a] =>
        destruct (String.eqb_spec type a) as [->|_];
        [exfalso; apply Hnot; simpl; tauto|]
    end.
    reflexivity.
Qed.

(** ** Further properties of the store methods *)

Lemma dict_get_lookup (h : store) l d key default :
  h !! l = Some d →
  dict_get l key default h
  = (Ok (match assoc key d with Some v => v | None => VStr default end), h).
Proof. intros H. unfold dict_get. now rewrite H. Qed.

Lemma dict_get_dangling (h : store) l key default :
  h !! l = None →
  dict_get l key default h = (Err (AttributeError "get"), h).
Proof. intros H. unfold dict_get. now rewrite H. Qed.

Ltac run_method_on_dict :=
  unfold mbind, M_bind;
  repeat (first
    [ erewrite dict_get_lookup by eauto using lookup_app_l_Some
    | progress unfold new_dict ];
    cbv beta iota).

Lemma SchemaGenerator_shapes_st_cases tag (m : method_st) t :
  assoc tag SchemaGenerator_shapes_st = Some (m, t) →
  (tag = "Organization" ∧ m = generate_organization_st
   ∧ t = organization_shape)
  ∨ (tag = "Product" ∧ m = generate_product_st ∧ t = product_shape)
  ∨ (tag = "Article" ∧ m = generate_article_st ∧ t = article_shape).
Proof.
  unfold SchemaGenerator_shapes_st. cbn [assoc].
  repeat match goal with
  | |- context [String.eqb ?a tag] =>
      destruct (String.eqb_spec a tag) as [<-|?]
  end; intros H; inversion H; subst; auto 6.
Qed.

(** X12. A store method is all or nothing. Called on a reference that
    holds no dictionary it raises at its first [get] and leaves the
    store as it was; called on any dictionary, whatever its values, it
    returns, having allocated exactly three dictionaries, the root
    last. *)
Theorem store_methods_all_or_nothing :
  Forall (λ entry : string * (method_st * shape),
            ∀ (h : store) data,
              match h !! data with
              | None => entry.2.1 data h = (Err (AttributeError "get"), h)
              | Some _ =>
                  ∃ nested1 nested2 root,
                    entry.2.1 data h
                    = (Ok (length h + 2), h ++ [nested1; nested2; root])
              end)
         SchemaGenerator_shapes_st.
Proof.
  unfold SchemaGenerator_shapes_st.
  repeat first [apply Forall_nil_2 | apply Forall_cons_2];
    intros h data; cbn [snd fst]; destruct (h !! data) as [d|] eqn:Hd.
  - unfold generate_organization_st. run_method_on_dict. normalize_store.
    rewrite <- Nat.add_assoc. eauto.
  - unfold generate_organization_st, mbind, M_bind.
    now rewrite (dict_get_dangling _ _ _ _ Hd).
  - unfold generate_product_st. run_method_on_dict. normalize_store.
    rewrite <- Nat.add_assoc. eauto.
  - unfold generate_product_st, mbind, M_bind.
    now rewrite (dict_get_dangling _ _ _ _ Hd).
  - unfold generate_article_st. run_method_on_dict. normalize_store.
    rewrite <- Nat.add_assoc. eauto.
  - unfold generate_article_st, mbind, M_bind.
    now rewrite (dict_get_dangling _ _ _ _ Hd).
Qed.

(** X13. The leaves of a stored document are the very values of the
    input dictionary: for any dictionary, a leaf read from a key holds
    what the dictionary holds under that key, a reference included, so a
    nested object of the input is shared with the document, not copied;
    a leaf whose key is missing holds the default. *)
Theorem store_leaf_is_input_value tag (m : method_st) t
    (h h' : store) data d root path key default :
  assoc tag SchemaGenerator_shapes_st = Some (m, t) →
  h !! data = Some d →
  m data h = (Ok root, h') →
  In (path, key, default) (sourced_leaves t) →
  at_path_st h' path (VRef root)
  = Some (match assoc key d with Some v => v | None => VStr default end).
Proof.
  intros H Hd Hrun Hin. apply SchemaGenerator_shapes_st_cases in H.
  destruct H as [(_ & -> & ->)|[(_ & -> & ->)|(_ & -> & ->)]].
  - unfold generate_organization_st in Hrun. revert Hrun.
    run_method_on_dict. normalize_store. rewrite <- Nat.add_assoc.
    intros [= <- <-]. simpl in Hin.
    repeat (destruct Hin as [Hin|Hin];
            [inversion Hin; subst; read_store; reflexivity|]).
    contradiction.
  - unfold generate_product_st in Hrun. revert Hrun.
    run_method_on_dict. normalize_store. rewrite <- Nat.add_assoc.
    intros [= <- <-]. simpl in Hin.
    repeat (destruct Hin as [Hin|Hin];
            [inversion Hin; subst; read_store; reflexivity|]).
    contradiction.
  - unfold generate_article_st in Hrun. revert Hrun.
    run_method_on_dict. normalize_store. rewrite <- Nat.add_assoc.
    intros [= <- <-]. simpl in Hin.
    repeat (destruct Hin as [Hin|Hin];
            [inversion Hin; subst; read_store; reflexivity|]).
    contradiction.
Qed.

Lemma store_leaf_is_input_value_witness :
  at_path_st
    [ [("street", VStr "1 Main St")];
      [("name", VRef 0)];
      [("@type", VStr "Brand"); ("name", VStr "")];
      [("@type", VStr "Offer"); ("price", VStr "");
       ("priceCurrency", VStr "USD");
       ("availability", VStr "https://schema.org/InStock")];
      [("@context", VStr "https://schema.org"); ("@type", VStr "Product");
       ("name", VRef 0); ("description", VStr ""); ("image", VStr "");
       ("brand", VRef 2); ("offers", VRef 3)] ]
    ["name"] (VRef 4)
  = Some (VRef 0).
Proof.
  apply (store_leaf_is_input_value "Product" generate_product_st product_shape
           [ [("street", VStr "1 Main St")]; [("name", VRef 0)] ]
           _ 1 [("name", VRef 0)] 4 ["name"] "name" "");
    [reflexivity | reflexivity | reflexivity | simpl; tauto].
Defined.

Lemma mapM_impl {A B} (f g : A → option B) (l : list A) (k : list B) :
  (∀ x y, f x = Some y → g x = Some y) →
  mapM f l = Some k → mapM g l = Some k.
Proof.
  intros Hfg. rewrite !mapM_Some. intros H.
  eapply Forall2_impl; [exact H|exact Hfg].
Qed.

(** A document read in a store is read unchanged in any store that
    preserves it. *)
Lemma read_doc_preserves fuel (h h' : store) v d :
  preserves h h' →
  read_doc fuel h v = Some d → read_doc fuel h' v = Some d.
Proof.
  intros Hpre. revert v d.
  induction fuel as [|fuel IH]; intros [s|l] d; simpl; try (intros H; exact H).
  destruct (h !! l) as [dict|] eqn:Hl; [|discriminate].
  rewrite (Hpre _ _ Hl). simpl.
  destruct (mapM _ dict) as [fields|] eqn:Hm; [|discriminate].
  simpl. intros [= <-].
  erewrite mapM_impl; [reflexivity| |exact Hm].
  intros [k v'] y. simpl.
  destruct (read_doc fuel h v') as [d'|] eqn:Hv; [|discriminate].
  simpl. intros [= <-]. now rewrite (IH _ _ Hv).
Qed.

Lemma SchemaGenerator_shapes_st_run tag (m : method_st) t h l (r : record) :
  assoc tag SchemaGenerator_shapes_st = Some (m, t) →
  holds_record h l r →
  ∃ objects,
    m l h = (Ok (length h + 2), h ++ objects)
    ∧ length objects = 3
    ∧ read_doc 2 (h ++ objects) (VRef (length h + 2)) = Some (fill r t)
    ∧ fresh_document h (h ++ objects) (length h + 2).
Proof.
  intros H Hrec. apply SchemaGenerator_shapes_st_cases in H.
  destruct H as [(_ & -> & ->)|[(_ & -> & ->)|(_ & -> & ->)]].
  - pose proof (generate_organization_st_outcome _ _ _ Hrec) as Hout.
    destruct (generate_organization_st_no_side_effects _ _ _ Hrec)
      as (_ & _ & Hfresh).
    rewrite (generate_organization_st_run _ _ _ Hrec) in *.
    rewrite <- Nat.add_assoc in *. unfold outcome in Hout.
    cbn [fst snd Nat.add] in Hfresh. injection Hout as Hout.
    specialize (Hfresh _ eq_refl).
    eexists. split; [reflexivity|]. split; [reflexivity|].
    split; [exact Hout|exact Hfresh].
  - pose proof (generate_product_st_outcome _ _ _ Hrec) as Hout.
    destruct (generate_product_st_no_side_effects _ _ _ Hrec)
      as (_ & _ & Hfresh).
    rewrite (generate_product_st_run _ _ _ Hrec) in *.
    rewrite <- Nat.add_assoc in *. unfold outcome in Hout.
    cbn [fst snd Nat.add] in Hfresh. injection Hout as Hout.
    specialize (Hfresh _ eq_refl).
    eexists. split; [reflexivity|]. split; [reflexivity|].
    split; [exact Hout|exact Hfresh].
  - pose proof (generate_article_st_outcome _ _ _ Hrec) as Hout.
    destruct (generate_article_st_no_side_effects _ _ _ Hrec)
      as (_ & _ & Hfresh).
    rewrite (generate_article_st_run _ _ _ Hrec) in *.
    rewrite <- Nat.add_assoc in *. unfold outcome in Hout.
    cbn [fst snd Nat.add] in Hfresh. injection Hout as Hout.
    specialize (Hfresh _ eq_refl).
    eexists. split; [reflexivity|]. split; [reflexivity|].
    split; [exact Hout|exact Hfresh].
Qed.

(** X14. Two calls in a row do not disturb each other. When a method is
    run on the record and then a method is run on the same record in the
    store the first run left, both return; in the final store the first
    document still reads as the document of its display, the second as
    that of its own, the second is made of dictionaries allocated by the
    second run only, and the record is still there. *)
Theorem successive_runs_independent tag1 tag2 (m1 m2 : method_st) t1 t2
    (h : store) l (r : record) :
  assoc tag1 SchemaGenerator_shapes_st = Some (m1, t1) →
  assoc tag2 SchemaGenerator_shapes_st = Some (m2, t2) →
  holds_record h l r →
  ∃ root1 h1 root2 h2,
    m1 l h = (Ok root1, h1)
    ∧ m2 l h1 = (Ok root2, h2)
    ∧ read_doc 2 h2 (VRef root1) = Some (fill r t1)
    ∧ read_doc 2 h2 (VRef root2) = Some (fill r t2)
    ∧ root1 ≠ root2
    ∧ fresh_document h1 h2 root2
    ∧ holds_record h2 l r.
Proof.
  intros H1 H2 Hrec.
  destruct (SchemaGenerator_shapes_st_run _ _ _ h l r H1 Hrec)
    as (objs1 & Hrun1 & Hlen1 & Hread1 & _).
  pose proof (holds_record_app h objs1 l r Hrec) as Hrec1.
  destruct (SchemaGenerator_shapes_st_run _ _ _ (h ++ objs1) l r H2 Hrec1)
    as (objs2 & Hrun2 & Hlen2 & Hread2 & Hfresh2).
  exists (length h + 2), (h ++ objs1),
         (length (h ++ objs1) + 2), ((h ++ objs1) ++ objs2).
  split; [exact Hrun1|]. split; [exact Hrun2|].
  split; [|split; [exact Hread2|split; [|split; [exact Hfresh2|]]]].
  - eapply read_doc_preserves; [apply preserves_ext|exact Hread1].
  - rewrite length_app. lia.
  - now apply holds_record_app.
Qed.

Lemma successive_runs_independent_witness :
  ∃ root1 h1 root2 h2,
    generate_organization_st 0 [record_dict acme] = (Ok root1, h1)
    ∧ generate_product_st 0 h1 = (Ok root2, h2)
    ∧ read_doc 2 h2 (VRef root1) = Some (fill acme organization_shape)
    ∧ read_doc 2 h2 (VRef root2) = Some (fill acme product_shape)
    ∧ root1 ≠ root2
    ∧ fresh_document h1 h2 root2
    ∧ holds_record h2 0 acme.
Proof.
  apply (successive_runs_independent "Organization" "Product"
           generate_organization_st generate_product_st
           organization_shape product_shape [record_dict acme] 0 acme
           eq_refl eq_refl).
  apply holds_record_dict. reflexivity.
Defined.

(** ** One key, one leaf *)

Lemma keyed_once {P D : Type} (leaves : list (P * string * D)) p p' key d d' :
  NoDup (map (λ '(_, key, _), key) leaves) →
  In (p, key, d) leaves → In (p', key, d') leaves → p = p'.
Proof.
  induction leaves as [|[[p0 k0] d0] rest IH]; simpl; [contradiction|].
  intros Hnd H1 H2. apply NoDup_cons in Hnd. destruct Hnd as [Hnot Hnd].
  assert (Hkey : ∀ q e, In (q, key, e) rest → k0 ≠ key).
  { intros q e Hin <-. apply Hnot. apply list_elem_of_In.
    apply (in_map (λ '(_, key, _), key) _ _ Hin). }
  destruct H1 as [E1|H1], H2 as [E2|H2].
  - congruence.
  - exfalso. apply (Hkey _ _ H2). congruence.
  - exfalso. apply (Hkey _ _ H1). congruence.
  - exact (IH Hnd H1 H2).
Qed.

Lemma source_keys_distinct tag (m : method) t :
  assoc tag SchemaGenerator_shapes = Some (m, t) → NoDup (source_keys t).
Proof.
  intros H. apply SchemaGenerator_shapes_cases in H.
  destruct H as [(_ & _ & ->)|[(_ & _ & ->)|(_ & _ & ->)]];
    apply (bool_decide_unpack _); vm_compute; reflexivity.
Qed.

(** X15. Each key feeds one leaf. Storing a value under a source key of
    a method puts that value in the leaf read from the key and leaves
    every other input-fed leaf of the document as it was. *)
Theorem one_key_one_leaf tag (m : method) t (data : record)
    path key default v path' key' default' :
  assoc tag SchemaGenerator_shapes = Some (m, t) →
  In (path, key, default) (sourced_leaves t) →
  In (path', key', default') (sourced_leaves t) →
  path' ≠ path →
  at_path path (m (<[key := v]> data)) = Some (DStr v)
  ∧ at_path path' (m (<[key := v]> data)) = at_path path' (m data).
Proof.
  intros H Hin Hin' Hne. split.
  - rewrite (sourced_leaf_value _ _ _ _ _ _ _ H Hin).
    unfold get. now rewrite lookup_insert_eq.
  - rewrite !(sourced_leaf_value _ _ _ _ _ _ _ H Hin').
    unfold get. rewrite lookup_insert_ne; [reflexivity|].
    intros <-. apply Hne.
    exact (keyed_once _ _ _ _ _ _ (source_keys_distinct _ _ _ H) Hin' Hin).
Qed.

Lemma one_key_one_leaf_witness :
  at_path ["headline"] (generate_article (<["title" := "News"]> dated))
  = Some (DStr "News")
  ∧ at_path ["datePublished"] (generate_article (<["title" := "News"]> dated))
    = at_path ["datePublished"] (generate_article dated).
Proof.
  apply (one_key_one_leaf "Article" generate_article article_shape dated
           ["headline"] "title" "" "News" ["datePublished"] "date" "");
    [reflexivity | simpl; tauto | simpl; tauto | discriminate].
Defined.
